(** * Analysis_Demo_(Interactive).py: the interactive SNT analysis demo

    The script drives a running SNT instance through the scripting API.  It owns
    no data of its own: every statement is a call into the host (the injected
    services [snt] and [ui], and the objects they hand back), or a [print].

    The host is kept abstract.  A host is a state together with a function
    answering one call at a time; the script is embedded as a program in a small
    monad that threads the host state, records every call with its reply, and
    propagates Python's [return] and unhandled exceptions. *)

From Stdlib Require Import List Ascii String ZArith QArith Bool Arith Lia.
From Stdlib Require DecimalString.
Import ListNotations.

Close Scope Q_scope.
Local Open Scope string_scope.
Local Open Scope list_scope.
Local Open Scope nat_scope.

(** ** Python values seen by the script *)

(** Identity of a host (Java) object referenced from the script. *)
Definition ObjId := nat.

(** What a host call can hand back: [None] (also Java [null] and [void]),
    a reference to a host object, or a number (a Java [double]): finite, not
    a number, or infinite. *)
Inductive Value : Type :=
| PyNone
| PyObj (o : ObjId)
| PyFloat (q : Q)
| PyNaN
| PyInf (negative : bool).

(** Truth value testing, as used by [if not x].  Host objects here (SNTUI,
    Tree) are not collections, so a reference is always true. *)
Definition truthy (v : Value) : bool :=
  match v with
  | PyNone => false
  | PyObj _ => true
  | PyFloat q => negb (Qnum q =? 0)%Z
  | PyNaN => true
  | PyInf _ => true
  end.

(** Unhandled faults that end the script. *)
Inductive PyExc : Type :=
| AttributeError   (* method looked up on a value that has none *)
| TypeError        (* [%d] applied to something that is not a number *)
| ValueError       (* [%d] applied to a float that is not a number *)
| OverflowError    (* [%d] applied to an infinite float *)
| HostError.       (* the host call itself threw *)

(** Static fields of host classes read by the script; their values live in
    the host. *)
Inductive StaticField : Type :=
| SNTUI_TRACING_PAUSED
| TreeStatistics_INTER_NODE_DISTANCE.

(** ** Calls into the host *)

Inductive HostCall : Type :=
| snt_getUI
| snt_initialize (displayGUI : bool)
| snt_demoTree
| ui_showDialog (message title : string)
| changeState (self : ObjId) (newState : StaticField)
| snt_loadTree (tree : Value)
| snt_getAnalyzer (selectedOnly : bool)
| snt_getStatistics (selectedOnly : bool)
| summarize (self : ObjId) (rowHeader : string) (groupByType : bool)
| updateAndDisplayTable (self : ObjId)
| getSummaryStats (self : ObjId) (metric : StaticField)
| getHistogram (self : ObjId) (metric : StaticField)
| show (self : ObjId)
| getMin (self : ObjId)
| snt_getTree (selectedOnly : bool)
| downSample (self : ObjId) (maximumAllowedDeviation : Z)
| setLabel (self : ObjId) (label : string)
| TreeStatistics (tree : Value)
| setColor (self : ObjId) (color : string)
| snt_getRecViewer
| snt_getPlugin
| updateAllViewers (self : ObjId).

(** A call either returns a value or throws. *)
Inductive Reply : Type :=
| Returns (v : Value)
| Throws.

(** What an observer of a run sees, in order. *)
Inductive Event : Type :=
| Call (c : HostCall) (r : Reply)
| Printed (line : string).

Definition Trace := list Event.

(** ** Formatting with [%d] *)

(** [int(x)] for a float: truncation toward zero. *)
Definition Qtrunc (q : Q) : Z := Z.quot (Qnum q) (Zpos (Qden q)).

Definition string_of_Z (z : Z) : string :=
  DecimalString.NilZero.string_of_int (Z.to_int z).

(** The text with its first [%d] replaced by [digits]. *)
Fixpoint substitute_d (template digits : string) : string :=
  match template with
  | String "%"%char (String "d"%char rest) => (digits ++ rest)%string
  | String c rest => String c (substitute_d rest digits)
  | EmptyString => EmptyString
  end.

(** [template % x] for a float [x] and a template with one [%d]. *)
Definition percent_d (template : string) (x : Q) : string :=
  substitute_d template (string_of_Z (Qtrunc x)).

(** What [%d] raises on a value it cannot format. *)
Definition format_fault (v : Value) : PyExc :=
  match v with
  | PyNaN => ValueError
  | PyInf _ => OverflowError
  | _ => TypeError
  end.

(** ** The script monad *)

(** How a piece of the script ends: it yields a value, executes [return],
    or raises. *)
Inductive Res (A : Type) : Type :=
| Val (a : A)
| Ret
| Exc (e : PyExc).

Arguments Val {A} a.
Arguments Ret {A}.
Arguments Exc {A} e.

Section Script.

Variable Host : Type.
Variable respond : Host -> HostCall -> Reply * Host.

Definition M (A : Type) : Type := Host -> Res A * Host * Trace.

Definition ret {A} (a : A) : M A := fun h => (Val a, h, []).

Definition bind {A B} (m : M A) (f : A -> M B) : M B :=
  fun h =>
    match m h with
    | (Val a, h1, t1) =>
        match f a h1 with
        | (r, h2, t2) => (r, h2, t1 ++ t2)
        end
    | (Ret, h1, t1) => (Ret, h1, t1)
    | (Exc e, h1, t1) => (Exc e, h1, t1)
    end.

Definition raise {A} (e : PyExc) : M A := fun h => (Exc e, h, []).

(** The [return] statement. *)
Definition return_ {A} : M A := fun h => (Ret, h, []).

Definition call (c : HostCall) : M Value :=
  fun h =>
    match respond h c with
    | (Returns v, h1) => (Val v, h1, [Call c (Returns v)])
    | (Throws, h1) => (Exc HostError, h1, [Call c Throws])
    end.

(** [recv.m(...)]: only a host object has the method.  A host object is an
    instance of the Java class its getter declares, so it has every method
    the script calls on it; [None] and numbers have none of them. *)
Definition invoke (recv : Value) (m : ObjId -> HostCall) : M Value :=
  match recv with
  | PyObj o => call (m o)
  | _ => raise AttributeError
  end.

(** [template % v]: a number is required, and it must have a whole part. *)
Definition format_d (template : string) (v : Value) : M string :=
  match v with
  | PyFloat q => ret (percent_d template q)
  | other => raise (format_fault other)
  end.

Definition print (line : string) : M unit :=
  fun h => (Val tt, h, [Printed line]).

Notation "x <- c1 ;; c2" := (bind c1 (fun x => c2))
  (at level 100, c1 at next level, right associativity).
Notation "c1 ;; c2" := (bind c1 (fun _ => c2))
  (at level 100, right associativity).

(** [def run()], lines 30 to 97, statement by statement. *)
Definition run : M unit :=
  (* 37-38 *)
  gui <- call snt_getUI ;;
  (if negb (truthy gui)
   then call (snt_initialize true) ;; ret tt
   else ret tt) ;;
  (* 42-45 *)
  demo_tree <- call snt_demoTree ;;
  (if negb (truthy demo_tree)
   then call (ui_showDialog "Somehow could not load bundled file." "Error") ;;
        return_
   else ret tt) ;;
  (* 48-49 *)
  gui <- call snt_getUI ;;
  invoke gui (fun self => changeState self SNTUI_TRACING_PAUSED) ;;
  call (snt_loadTree demo_tree) ;;
  (* 62-63 *)
  analyzer <- call (snt_getAnalyzer false) ;;
  stats <- call (snt_getStatistics false) ;;
  (* 66-67 *)
  invoke analyzer (fun self => summarize self "TreeV Demo" true) ;;
  invoke analyzer updateAndDisplayTable ;;
  (* 72-75 *)
  let metric := TreeStatistics_INTER_NODE_DISTANCE in
  summary_stats <- invoke stats (fun self => getSummaryStats self metric) ;;
  hist <- invoke stats (fun self => getHistogram self metric) ;;
  invoke hist show ;;
  smallest <- invoke summary_stats getMin ;;
  line <- format_d "Smallest inter-node distance: %d" smallest ;;
  print line ;;
  (* 79-81 *)
  tree <- call (snt_getTree false) ;;
  invoke tree (fun self => downSample self 10) ;;
  invoke tree (fun self => setLabel self "10um downsampled") ;;
  (* 84-89 *)
  stats <- call (TreeStatistics tree) ;;
  summary_stats <- invoke stats (fun self => getSummaryStats self metric) ;;
  hist <- invoke stats (fun self => getHistogram self metric) ;;
  invoke hist show ;;
  invoke analyzer (fun self => summarize self "TreeV Demo (Downsampled)" true) ;;
  invoke analyzer updateAndDisplayTable ;;
  smallest <- invoke summary_stats getMin ;;
  line <- format_d "After downsampling: %d" smallest ;;
  print line ;;
  (* 92-97 *)
  invoke tree (fun self => setColor self "cyan") ;;
  tree <- call snt_demoTree ;;
  invoke tree (fun self => setColor self "yellow") ;;
  call (snt_loadTree tree) ;;
  viewer <- call snt_getRecViewer ;;
  invoke viewer show ;;
  plugin <- call snt_getPlugin ;;
  invoke plugin updateAllViewers ;;
  ret tt.

(** The module ends with one call [run()] (line 99): how it ends, the host
    it leaves behind, and what was observed on the way. *)
Definition outcome (h : Host) : Res unit := fst (fst (run h)).
Definition final (h : Host) : Host := snd (fst (run h)).
Definition trace (h : Host) : Trace := snd (run h).

End Script.

Arguments run {Host} respond h.
Arguments outcome {Host} respond h.
Arguments final {Host} respond h.
Arguments trace {Host} respond h.

(** ** Reading traces *)

Definition is_call (p : HostCall -> bool) (e : Event) : bool :=
  match e with
  | Call c _ => p c
  | Printed _ => false
  end.

Definition is_getUI (c : HostCall) : bool :=
  match c with snt_getUI => true | _ => false end.
Definition is_initialize (c : HostCall) : bool :=
  match c with snt_initialize _ => true | _ => false end.
Definition is_demoTree (c : HostCall) : bool :=
  match c with snt_demoTree => true | _ => false end.
Definition is_showDialog (c : HostCall) : bool :=
  match c with ui_showDialog _ _ => true | _ => false end.
Definition is_loadTree (c : HostCall) : bool :=
  match c with snt_loadTree _ => true | _ => false end.

Definition is_downSample (c : HostCall) : bool :=
  match c with downSample _ _ => true | _ => false end.
Definition is_setColor (c : HostCall) : bool :=
  match c with setColor _ _ => true | _ => false end.

Definition is_print (e : Event) : bool :=
  match e with
  | Printed _ => true
  | Call _ _ => false
  end.

(** The replies given to the calls selected by [p], in order. *)
Fixpoint replies_to (p : HostCall -> bool) (tr : Trace) : list Reply :=
  match tr with
  | [] => []
  | Call c r :: rest => if p c then r :: replies_to p rest else replies_to p rest
  | Printed _ :: rest => replies_to p rest
  end.

Definition count_calls (p : HostCall -> bool) (tr : Trace) : nat :=
  List.length (filter (is_call p) tr).

(** ** The shape of the script *)

(** A call with the identities of the objects involved blanked out: what is
    left is the statement that issued it, with its literal arguments. *)
Definition anonymous (c : HostCall) : HostCall :=
  match c with
  | changeState _ s => changeState 0 s
  | snt_loadTree _ => snt_loadTree PyNone
  | summarize _ header split => summarize 0 header split
  | updateAndDisplayTable _ => updateAndDisplayTable 0
  | getSummaryStats _ m => getSummaryStats 0 m
  | getHistogram _ m => getHistogram 0 m
  | show _ => show 0
  | getMin _ => getMin 0
  | downSample _ d => downSample 0 d
  | setLabel _ l => setLabel 0 l
  | TreeStatistics _ => TreeStatistics PyNone
  | setColor _ col => setColor 0 col
  | updateAllViewers _ => updateAllViewers 0
  | other => other
  end.

(** The statements behind a trace; [None] stands for a [print]. *)
Definition skeleton (tr : Trace) : list (option HostCall) :=
  map (fun e => match e with
                | Call c _ => Some (anonymous c)
                | Printed _ => None
                end) tr.

(** Lines 48 to 97 of the script, in order. *)
Definition workflow : list (option HostCall) :=
  [ Some snt_getUI;
    Some (changeState 0 SNTUI_TRACING_PAUSED);
    Some (snt_loadTree PyNone);
    Some (snt_getAnalyzer false);
    Some (snt_getStatistics false);
    Some (summarize 0 "TreeV Demo" true);
    Some (updateAndDisplayTable 0);
    Some (getSummaryStats 0 TreeStatistics_INTER_NODE_DISTANCE);
    Some (getHistogram 0 TreeStatistics_INTER_NODE_DISTANCE);
    Some (show 0);
    Some (getMin 0);
    None;
    Some (snt_getTree false);
    Some (downSample 0 10);
    Some (setLabel 0 "10um downsampled");
    Some (TreeStatistics PyNone);
    Some (getSummaryStats 0 TreeStatistics_INTER_NODE_DISTANCE);
    Some (getHistogram 0 TreeStatistics_INTER_NODE_DISTANCE);
    Some (show 0);
    Some (summarize 0 "TreeV Demo (Downsampled)" true);
    Some (updateAndDisplayTable 0);
    Some (getMin 0);
    None;
    Some (setColor 0 "cyan");
    Some snt_demoTree;
    Some (setColor 0 "yellow");
    Some (snt_loadTree PyNone);
    Some snt_getRecViewer;
    Some (show 0);
    Some snt_getPlugin;
    Some (updateAllViewers 0) ].

(** The four ways through the script: each of the two [if] statements is
    either taken or not. *)
Definition straight_line (ui_missing demo_missing : bool)
  : list (option HostCall) :=
  Some snt_getUI
  :: (if ui_missing then [Some (snt_initialize true)] else [])
  ++ Some snt_demoTree
  :: (if demo_missing
      then [Some (ui_showDialog "Somehow could not load bundled file." "Error")]
      else workflow).

(** ** Where a run may stop *)

(** Whether the result of [getter] is what [method] is called on: the
    variables [analyzer], [stats], [summary_stats] and [tree], and the
    results used on the spot by [snt.getUI().changeState], [....show()] and
    [snt.getPlugin().updateAllViewers()]. *)
Definition supplies (getter method : HostCall) : bool :=
  match method, getter with
  | changeState _ _, snt_getUI => true
  | summarize _ _ _, snt_getAnalyzer _ => true
  | updateAndDisplayTable _, snt_getAnalyzer _ => true
  | getSummaryStats _ _, snt_getStatistics _ => true
  | getSummaryStats _ _, TreeStatistics _ => true
  | getHistogram _ _, snt_getStatistics _ => true
  | getHistogram _ _, TreeStatistics _ => true
  | show _, getHistogram _ _ => true
  | show _, snt_getRecViewer => true
  | getMin _, getSummaryStats _ _ => true
  | downSample _ _, snt_getTree _ => true
  | setLabel _ _, snt_getTree _ => true
  | setColor _ _, snt_getTree _ => true
  | setColor _ _, snt_demoTree => true
  | updateAllViewers _, snt_getPlugin => true
  | _, _ => false
  end.

(** The latest reply that supplies the receiver of [method]. *)
Definition receiver (method : HostCall) (tr : Trace) : option Reply :=
  hd_error (rev (replies_to (fun getter => supplies getter method) tr)).

Definition PyExc_eqb (a b : PyExc) : bool :=
  match a, b with
  | AttributeError, AttributeError => true
  | TypeError, TypeError => true
  | ValueError, ValueError => true
  | OverflowError, OverflowError => true
  | HostError, HostError => true
  | _, _ => false
  end.

(** What accounts for a run that stopped with exception [e] before the
    statement [next] ([None] stands for a [print]): the last call threw; or
    [next] calls a method on the latest value of its receiver, which is not
    an object; or [next] prints the [getMin()] result just handed back,
    which [%d] refuses with [e]. *)
Definition fault_cause (e : PyExc) (next : option (option HostCall))
    (tr : Trace) : bool :=
  match e with
  | HostError =>
      match hd_error (rev tr) with
      | Some (Call _ Throws) => true
      | _ => false
      end
  | AttributeError =>
      match next with
      | Some (Some method) =>
          match receiver method tr with
          | Some (Returns (PyObj _)) => false
          | Some (Returns _) => true
          | _ => false
          end
      | _ => false
      end
  | TypeError | ValueError | OverflowError =>
      match next, hd_error (rev tr) with
      | Some None, Some (Call (getMin _) (Returns (PyFloat _))) => false
      | Some None, Some (Call (getMin _) (Returns v)) =>
          PyExc_eqb (format_fault v) e
      | _, _ => false
      end
  end.

(** ** What the runs are shown to look like *)




(** The minimum is read and printed once before [downSample] and once after,
    each time cut to a whole number; nothing else is printed. *)
Definition prints_truncated_minima (tr : Trace) : Prop :=
  exists stats1 summary1 m1 tree stats2 summary2 m2 a b c d e f r,
    tr = a ++ Call (getSummaryStats stats1 TreeStatistics_INTER_NODE_DISTANCE)
               (Returns (PyObj summary1))
          :: b ++ Call (getMin summary1) (Returns (PyFloat m1))
          :: Printed (percent_d "Smallest inter-node distance: %d" m1)
          :: c ++ Call (downSample tree 10) r
          :: d ++ Call (getSummaryStats stats2 TreeStatistics_INTER_NODE_DISTANCE)
               (Returns (PyObj summary2))
          :: e ++ Call (getMin summary2) (Returns (PyFloat m2))
          :: Printed (percent_d "After downsampling: %d" m2)
          :: f
    /\ List.length (filter is_print tr) = 2
    /\ count_calls is_downSample tr = 1.

(** The failed second load is the last thing that happens: the script raises
    when it looks up [setColor] on what came back. *)
Definition faults_at_second_load (v : Value) (tr : Trace) (res : Res unit)
  : Prop :=
  res = Exc AttributeError
  /\ count_calls is_showDialog tr = 0
  /\ count_calls is_setColor tr = 1
  /\ count_calls is_loadTree tr = 1
  /\ exists earlier, tr = earlier ++ [Call snt_demoTree (Returns v)].


(** The statements executed are an initial part of one straight line, chosen
    by the two tests; [return] ends the run only with the demo tree missing,
    and the end of the script is reached only with it present, in both cases
    with the whole line executed.  A run stops anywhere else only by
    raising, and only where the host made the next statement of the line
    impossible.  With the UI missing, an initialization that comes back is
    followed by the load of the demo tree: the run goes on. *)
Definition follows_a_straight_line (tr : Trace) (res : Res unit) : Prop :=
  exists ui_missing demo_missing cut,
    straight_line ui_missing demo_missing = skeleton tr ++ cut
    /\ (forall v, hd_error (replies_to is_getUI tr) = Some (Returns v) ->
                  ui_missing = negb (truthy v))
    /\ (forall v, hd_error (replies_to is_demoTree tr) = Some (Returns v) ->
                  demo_missing = negb (truthy v))
    /\ (res = Ret -> demo_missing = true /\ cut = [])
    /\ (res = Val tt -> demo_missing = false /\ cut = [])
    /\ (forall e, res = Exc e -> fault_cause e (hd_error cut) tr = true)
    /\ (ui_missing = true ->
        forall r, nth_error tr 1 = Some (Call (snt_initialize true) (Returns r)) ->
                  exists d, nth_error tr 2 = Some (Call snt_demoTree d)).

(** ** A host that plays back canned replies *)

Definition Scripted := list Reply.

Definition scripted_respond (h : Scripted) (c : HostCall) : Reply * Scripted :=
  match h with
  | r :: rest => (r, rest)
  | [] => (Throws, [])
  end.

(** Replies from the first [snt.demoTree()] on, for a run that goes through;
    the two minima are 1/2 and 7/2. *)
Definition replies_from_first_load : Scripted :=
  [ Returns (PyObj 2); Returns (PyObj 1); Returns PyNone; Returns PyNone;
    Returns (PyObj 3); Returns (PyObj 4); Returns PyNone; Returns PyNone;
    Returns (PyObj 5); Returns (PyObj 6); Returns PyNone;
    Returns (PyFloat (1 # 2)%Q);
    Returns (PyObj 7); Returns PyNone; Returns PyNone;
    Returns (PyObj 8); Returns (PyObj 9); Returns (PyObj 10); Returns PyNone;
    Returns PyNone; Returns PyNone;
    Returns (PyFloat (7 # 2)%Q);
    Returns PyNone; Returns (PyObj 11); Returns PyNone; Returns PyNone;
    Returns (PyObj 12); Returns PyNone; Returns (PyObj 13); Returns PyNone ].

(** The UI is already running. *)
Definition demo_replies : Scripted :=
  Returns (PyObj 1) :: replies_from_first_load.

(** The UI is not running; [snt.initialize(True)] brings it up. *)
Definition no_ui_replies : Scripted :=
  Returns PyNone :: Returns PyNone :: replies_from_first_load.

(** The bundled file cannot be loaded. *)
Definition failed_load_replies : Scripted :=
  [ Returns PyNone; Returns PyNone; Returns PyNone; Returns PyNone ].

(** The first load works, the second hands back nothing. *)
Definition failed_reload_replies : Scripted :=
  firstn 24 demo_replies ++ [ Returns PyNone ].

(** ** Trees and inter-node distances *)

(** The classes behind the trees and [TreeStatistics] belong to the host; the
    script only calls them.  What the modelled host needs of them follows
    the spec.  How [Tree.downSample] picks the nodes it keeps is not
    modelled: the modelled host takes it as a parameter. *)

(** Modelled from the spec: a sample point of a path (host class
    [PointInImage], absent), on an integer grid so that distances compare
    exactly. *)
Record Node : Type := mkNode {
  node_x : Z;
  node_y : Z;
  node_z : Z
}.

(** Modelled from the spec: "Path: a single traced segment within a Tree"
    (host class [Path], absent), as its sample points in order. *)
Definition Path := list Node.

(** Modelled from the spec: "Tree: an externally-owned collection of path
    structures" (host class [Tree], absent). *)
Definition Tree := list Path.

Definition sq (z : Z) : Z := (z * z)%Z.

(** Modelled from the spec: the distance between two sample points
    (absent from the sources), as its square. *)
Definition distance2 (a b : Node) : Z :=
  (sq (node_x b - node_x a) + sq (node_y b - node_y a)
   + sq (node_z b - node_z a))%Z.

(** Modelled from the spec: "Inter-node distance: spacing metric between
    consecutive sample points along a Path" (the values behind
    [TreeStatistics.INTER_NODE_DISTANCE], absent), squared. *)
Fixpoint inter_node_distances (p : Path) : list Z :=
  match p with
  | a :: (b :: _) as rest => distance2 a b :: inter_node_distances rest
  | _ => []
  end.

(** Modelled from the spec: [getMin()] of a summary (host class
    [SummaryStatistics], absent): the least value; none for no values. *)
Definition getMin_of (values : list Z) : option Z :=
  match values with
  | [] => None
  | x :: rest => Some (fold_left Z.min rest x)
  end.

(** Modelled from the spec: the minimum that
    [getSummaryStats(INTER_NODE_DISTANCE)] computes for a tree, squared. *)
Definition minimum_inter_node (t : Tree) : option Z :=
  getMin_of (flat_map inter_node_distances t).

(** A stand-in for [Tree.downSample], for examples only: whatever the
    spacing, a path keeps its two end nodes. *)
Definition ends_only (spacing : Z) (p : Path) : Path :=
  match p with
  | [] => []
  | first :: rest =>
      first :: match rev rest with
               | [] => []
               | last :: _ => [last]
               end
  end.

(** A path that turns at a right angle: 8 along x, then 10 back to an end
    that is 6 away from the start. *)
Definition right_angle : Tree :=
  [[ mkNode 0 0 0; mkNode 8 0 0; mkNode 0 6 0 ]].

(** ** The host application *)

(** The services [snt] and [ui] and the objects they hand back are host code.
    The model below follows the spec: one live instance with its currently
    loaded paths, trees as references into that set, in-place downsampling
    and colouring, and a 3D viewer showing what is loaded. *)

(** Modelled from the spec: a loaded path (host class [Path], absent) with
    the colour it is drawn in. *)
Record PathData : Type := mkPath {
  nodes : Path;
  color : option string
}.

(** Modelled from the spec: what a [Tree] reference points at (host class
    [Tree], absent): paths of its own while it is not loaded, positions in
    the loaded set afterwards, so that changes made through the reference
    are changes to the loaded paths. *)
Inductive TreeView : Type :=
| Detached (paths : list PathData)
| Attached (indices : list nat).

(** Modelled from the spec: the host objects the script gets hold of
    (classes [SNTUI], [Viewer3D], [SNT], [TreeAnalyzer], [TreeStatistics],
    [SummaryStatistics], the histogram and [Tree], all absent). *)
Inductive HostObject : Type :=
| UIObject
| ViewerObject
| PluginObject
| AnalyzerObject (view : TreeView)
| StatisticsObject (view : TreeView)
| SummaryObject (minimum : Reply)
| HistogramObject
| TreeObject (view : TreeView) (label : option string).

(** Modelled from the spec: "the one live host application instance and its
    currently-loaded Tree/Path set" (host class [SNTService] and what it
    manages, absent).  An object's identity is its position in [objects]. *)
Record SNT : Type := mkSNT {
  ui_running : bool;
  tracing_paused : bool;
  loaded : list PathData;
  selection : list nat;
  objects : list HostObject;
  viewer : list PathData;
  dialogs : list (string * string)
}.

Definition with_loaded (s : SNT) (l : list PathData) : SNT :=
  mkSNT (ui_running s) (tracing_paused s) l (selection s) (objects s)
    (viewer s) (dialogs s).

Definition with_objects (s : SNT) (objs : list HostObject) : SNT :=
  mkSNT (ui_running s) (tracing_paused s) (loaded s) (selection s) objs
    (viewer s) (dialogs s).

Definition with_viewer (s : SNT) (shown : list PathData) : SNT :=
  mkSNT (ui_running s) (tracing_paused s) (loaded s) (selection s)
    (objects s) shown (dialogs s).

Definition the_ui : ObjId := 0.
Definition the_viewer : ObjId := 1.
Definition the_plugin : ObjId := 2.

(** Modelled from the spec: a host in which the script has not been handed
    any object yet; only the UI, the viewer and the plugin exist. *)
Definition fresh_session (s : SNT) : Prop :=
  objects s = [UIObject; ViewerObject; PluginObject].

Definition startup (ui : bool) (paths : list PathData) (selected : list nat)
  : SNT :=
  mkSNT ui false paths selected [UIObject; ViewerObject; PluginObject] [] [].

Definition allocate (s : SNT) (obj : HostObject) : Reply * SNT :=
  (Returns (PyObj (List.length (objects s))),
   with_objects s (objects s ++ [obj])).

Fixpoint replace_nth {A} (i : nat) (x : A) (l : list A) : list A :=
  match l, i with
  | [], _ => []
  | _ :: rest, O => x :: rest
  | y :: rest, S j => y :: replace_nth j x rest
  end.

(** [f] applied to the elements of [l] whose positions, counted from [i],
    are among [indices]. *)
Fixpoint on_indices {A} (f : A -> A) (indices : list nat) (i : nat)
  (l : list A) : list A :=
  match l with
  | [] => []
  | x :: rest =>
      (if existsb (Nat.eqb i) indices then f x else x)
      :: on_indices f indices (S i) rest
  end.

Fixpoint at_indices {A} (indices : list nat) (i : nat) (l : list A) : list A :=
  match l with
  | [] => []
  | x :: rest =>
      if existsb (Nat.eqb i) indices
      then x :: at_indices indices (S i) rest
      else at_indices indices (S i) rest
  end.

(** Modelled from the spec: "scoped to either all loaded paths or only
    UI-selected paths (a boolean toggle controls scope)". *)
Definition scope (s : SNT) (selectedOnly : bool) : TreeView :=
  Attached (if selectedOnly then selection s
            else seq 0 (List.length (loaded s))).

Definition paths_of (s : SNT) (view : TreeView) : list PathData :=
  match view with
  | Detached paths => paths
  | Attached indices => at_indices indices 0 (loaded s)
  end.

(** Modelled from the spec: a change made through the tree object [o], in
    place. *)
Definition change_paths (s : SNT) (o : ObjId) (view : TreeView)
  (label : option string) (f : PathData -> PathData) : SNT :=
  match view with
  | Detached paths =>
      with_objects s
        (replace_nth o (TreeObject (Detached (map f paths)) label) (objects s))
  | Attached indices => with_loaded s (on_indices f indices 0 (loaded s))
  end.

(** Modelled from the spec: a loaded path whose nodes are replaced through
    [f], as [downSample] does in place; its colour stays. *)
Definition resampled (f : Path -> Path) (p : PathData) : PathData :=
  mkPath (f (nodes p)) (color p).

(** Modelled from the spec: what [setColor] does to one loaded path; its
    nodes stay. *)
Definition painted (c : string) (p : PathData) : PathData :=
  mkPath (nodes p) (Some c).

(** Modelled from the spec: "a second fresh copy of the demo tree": every
    retrieval builds new, uncoloured paths. *)
Definition fresh_copy (t : Tree) : list PathData :=
  map (fun p => mkPath p None) t.

(** Modelled from the spec: one tree rendering in the 3D viewer (host class
    [Viewer3D], absent): the paths of a tree, drawn in one colour. *)
Record Rendering : Type := mkRendering {
  shown_color : string;
  shown_paths : list Path
}.

Definition display (r : Rendering) : list PathData :=
  map (fun p => mkPath p (Some (shown_color r))) (shown_paths r).

Section Host.

(** The bundled demo reconstruction, if it can be read. *)
Variable bundled : option Tree.

(** What the statistics engine reports as the minimum inter-node distance of
    some paths: a floating-point result, left open. *)
Variable reported_minimum : list Path -> Reply.

(** What [Tree.downSample] makes of one path for a given spacing: host code,
    left open. *)
Variable downsample : Z -> Path -> Path.

Definition ok (s : SNT) : Reply * SNT := (Returns PyNone, s).
Definition refuse (s : SNT) : Reply * SNT := (Throws, s).

(** Modelled from the spec: how the host answers each call of the scripting
    API used by the script (host classes [SNTService], [UIService], [SNTUI],
    [Tree], [TreeAnalyzer], [TreeStatistics], [Viewer3D], [SNT], absent). *)
Definition snt_respond (s : SNT) (c : HostCall) : Reply * SNT :=
  match c with
  | snt_getUI =>
      (Returns (if ui_running s then PyObj the_ui else PyNone), s)
  | snt_initialize displayGUI =>
      ok (mkSNT (ui_running s || displayGUI) (tracing_paused s) (loaded s)
            (selection s) (objects s) (viewer s) (dialogs s))
  | snt_demoTree =>
      match bundled with
      | Some t => allocate s (TreeObject (Detached (fresh_copy t)) None)
      | None => ok s
      end
  | ui_showDialog message title =>
      ok (mkSNT (ui_running s) (tracing_paused s) (loaded s) (selection s)
            (objects s) (viewer s) (dialogs s ++ [(message, title)]))
  | changeState self SNTUI_TRACING_PAUSED =>
      match nth_error (objects s) self with
      | Some UIObject =>
          ok (mkSNT (ui_running s) true (loaded s) (selection s) (objects s)
                (viewer s) (dialogs s))
      | _ => refuse s
      end
  | changeState _ _ => refuse s
  | snt_loadTree (PyObj o) =>
      match nth_error (objects s) o with
      | Some (TreeObject (Detached paths) label) =>
          let first := List.length (loaded s) in
          ok (with_objects (with_loaded s (loaded s ++ paths))
                (replace_nth o
                   (TreeObject (Attached (seq first (List.length paths))) label)
                   (objects s)))
      | _ => refuse s
      end
  | snt_loadTree _ => refuse s
  | snt_getAnalyzer selectedOnly =>
      allocate s (AnalyzerObject (scope s selectedOnly))
  | snt_getStatistics selectedOnly =>
      allocate s (StatisticsObject (scope s selectedOnly))
  | summarize self _ _ =>
      match nth_error (objects s) self with
      | Some (AnalyzerObject _) => ok s
      | _ => refuse s
      end
  | updateAndDisplayTable self =>
      match nth_error (objects s) self with
      | Some (AnalyzerObject _) => ok s
      | _ => refuse s
      end
  | getSummaryStats self TreeStatistics_INTER_NODE_DISTANCE =>
      match nth_error (objects s) self with
      | Some (StatisticsObject view) =>
          allocate s
            (SummaryObject (reported_minimum (map nodes (paths_of s view))))
      | _ => refuse s
      end
  | getSummaryStats _ _ => refuse s
  | getHistogram self TreeStatistics_INTER_NODE_DISTANCE =>
      match nth_error (objects s) self with
      | Some (StatisticsObject _) => allocate s HistogramObject
      | _ => refuse s
      end
  | getHistogram _ _ => refuse s
  | show self =>
      match nth_error (objects s) self with
      | Some HistogramObject => ok s
      | Some ViewerObject => ok (with_viewer s (loaded s))
      | _ => refuse s
      end
  | getMin self =>
      match nth_error (objects s) self with
      | Some (SummaryObject minimum) => (minimum, s)
      | _ => refuse s
      end
  | snt_getTree selectedOnly =>
      allocate s (TreeObject (scope s selectedOnly) None)
  | downSample self spacing =>
      match nth_error (objects s) self with
      | Some (TreeObject view label) =>
          ok (change_paths s self view label (resampled (downsample spacing)))
      | _ => refuse s
      end
  | setLabel self label =>
      match nth_error (objects s) self with
      | Some (TreeObject view _) =>
          ok (with_objects s
                (replace_nth self (TreeObject view (Some label)) (objects s)))
      | _ => refuse s
      end
  | TreeStatistics (PyObj o) =>
      match nth_error (objects s) o with
      | Some (TreeObject view _) => allocate s (StatisticsObject view)
      | _ => refuse s
      end
  | TreeStatistics _ => refuse s
  | setColor self c =>
      match nth_error (objects s) self with
      | Some (TreeObject view label) =>
          ok (change_paths s self view label (painted c))
      | _ => refuse s
      end
  | snt_getRecViewer => (Returns (PyObj the_viewer), s)
  | snt_getPlugin => (Returns (PyObj the_plugin), s)
  | updateAllViewers self =>
      match nth_error (objects s) self with
      | Some PluginObject => ok (with_viewer s (loaded s))
      | _ => refuse s
      end
  end.

End Host.

(** A statistics engine for examples: exact when the squared minimum is a
    perfect square; with no distance to take the minimum of, the answer is
    not a number. *)
Definition whole_minimum (ps : list Path) : Reply :=
  match minimum_inter_node ps with
  | Some m => Returns (PyFloat (inject_Z (Z.sqrt m)))
  | None => Returns PyNaN
  end.

(** ** More ways to read a trace *)

Definition is_getMin (c : HostCall) : bool :=
  match c with getMin _ => true | _ => false end.
Definition is_changeState (c : HostCall) : bool :=
  match c with changeState _ _ => true | _ => false end.
Definition is_getTree (c : HostCall) : bool :=
  match c with snt_getTree _ => true | _ => false end.
Definition is_setLabel (c : HostCall) : bool :=
  match c with setLabel _ _ => true | _ => false end.

Definition is_object (v : Value) : bool :=
  match v with PyObj _ => true | _ => false end.

(** A float, whether or not it has a value. *)
Definition is_number (v : Value) : bool :=
  match v with
  | PyFloat _ | PyNaN | PyInf _ => true
  | _ => false
  end.

(** The host call threw. *)
Definition threw (e : Event) : bool :=
  match e with
  | Call _ Throws => true
  | _ => false
  end.

(** [getMin()] handed back something that is not a number. *)
Definition bad_minimum (e : Event) : bool :=
  match e with
  | Call (getMin _) (Returns v) => negb (is_number v)
  | _ => false
  end.

Definition last_event (tr : Trace) : option Event := hd_error (rev tr).

Definition ends_with (p : Event -> bool) (tr : Trace) : bool :=
  match last_event tr with
  | Some e => p e
  | None => false
  end.

(** The statement the run was about to execute, read off the line the run
    is on. *)
Definition next_statement (tr : Trace) : option (option HostCall) :=
  nth_error
    (straight_line (existsb (is_call is_initialize) tr)
       (existsb (is_call is_showDialog) tr))
    (List.length tr).

(** [getMin()] hands back a float that is not a number. *)
Definition nan_minimum_replies : Scripted :=
  firstn 12 demo_replies ++ [ Returns PyNaN ].

(** The trees passed to [snt.loadTree], in order. *)
Fixpoint loaded_trees (tr : Trace) : list Value :=
  match tr with
  | [] => []
  | Call (snt_loadTree t) _ :: rest => t :: loaded_trees rest
  | _ :: rest => loaded_trees rest
  end.

(** The lines printed, in order. *)
Fixpoint printed_lines (tr : Trace) : list string :=
  match tr with
  | [] => []
  | Printed line :: rest => line :: printed_lines rest
  | Call _ _ :: rest => printed_lines rest
  end.

(** The run stopped at the second [snt.getUI()], which handed back [v]:
    nothing was paused and nothing was loaded. *)
Definition faults_before_load (v : Value) (tr : Trace) (res : Res unit)
  : Prop :=
  res = Exc AttributeError
  /\ last_event tr = Some (Call snt_getUI (Returns v))
  /\ count_calls is_changeState tr = 0
  /\ count_calls is_loadTree tr = 0.

(** The dialog was shown because the first load handed back a false value;
    nothing was paused or loaded and the end of the script was not
    reached. *)
Definition dialog_after_failed_load (tr : Trace) (res : Res unit) : Prop :=
  exists v,
    hd_error (replies_to is_demoTree tr) = Some (Returns v)
    /\ truthy v = false
    /\ count_calls is_changeState tr = 0
    /\ count_calls is_loadTree tr = 0
    /\ res <> Val tt.

(** The run stopped at the first [getMin()]: nothing was printed and the
    tree was neither fetched nor downsampled. *)
Definition faults_at_first_minimum (tr : Trace) (res : Res unit) : Prop :=
  res = Exc TypeError
  /\ ends_with bad_minimum tr = true
  /\ printed_lines tr = []
  /\ count_calls is_getTree tr = 0
  /\ count_calls is_downSample tr = 0.

(** The run stopped at the second [getMin()]: the first minimum [m] was
    printed, the tree was downsampled and relabelled, and nothing was
    coloured, reloaded or shown. *)
Definition faults_at_second_minimum (m : Q) (tr : Trace) (res : Res unit)
  : Prop :=
  res = Exc TypeError
  /\ ends_with bad_minimum tr = true
  /\ printed_lines tr = [percent_d "Smallest inter-node distance: %d" m]
  /\ count_calls is_downSample tr = 1
  /\ count_calls is_setLabel tr = 1
  /\ count_calls is_setColor tr = 0
  /\ count_calls is_loadTree tr = 1.

(** The last eight events: the downsampled tree is coloured cyan, a second
    demo tree is fetched, coloured yellow and loaded, the viewer is shown and
    all viewers are updated. *)
Definition ends_with_rendering (tr : Trace) : Prop :=
  exists before tree tree2 viewer plugin r1 r2 r3 r4 r5,
    tr = before ++ [ Call (setColor tree "cyan") r1;
                     Call snt_demoTree (Returns (PyObj tree2));
                     Call (setColor tree2 "yellow") r2;
                     Call (snt_loadTree (PyObj tree2)) r3;
                     Call snt_getRecViewer (Returns (PyObj viewer));
                     Call (show viewer) r4;
                     Call snt_getPlugin (Returns (PyObj plugin));
                     Call (updateAllViewers plugin) r5 ]
    /\ count_calls is_setColor before = 0
    /\ List.length (loaded_trees before) = 1.

(** The object handed back by [snt.getTree(False)] is the one downsampled,
    relabelled, measured again and coloured cyan. *)
Definition changes_the_fetched_tree (tr : Trace) : Prop :=
  exists tree a b c r1 r2 r3 r4,
    tr = a ++ Call (snt_getTree false) (Returns (PyObj tree))
           :: Call (downSample tree 10) r1
           :: Call (setLabel tree "10um downsampled") r2
           :: Call (TreeStatistics (PyObj tree)) r3
           :: b ++ Call (setColor tree "cyan") r4 :: c
    /\ count_calls is_getTree tr = 1
    /\ count_calls is_downSample tr = 1
    /\ count_calls is_setLabel tr = 1.

(** Both minima are read, and one strictly between -1 and 1 is printed
    as 0. *)
Definition prints_small_minima_as_zero (tr : Trace) : Prop :=
  exists m1 m2,
    replies_to is_getMin tr = [Returns (PyFloat m1); Returns (PyFloat m2)]
    /\ List.length (printed_lines tr) = 2
    /\ ((-1 < m1)%Q -> (m1 < 1)%Q ->
        nth_error (printed_lines tr) 0 = Some "Smallest inter-node distance: 0")
    /\ ((-1 < m2)%Q -> (m2 < 1)%Q ->
        nth_error (printed_lines tr) 1 = Some "After downsampling: 0").

(** The UI stays away even after [snt.initialize(True)]. *)
Definition ui_never_comes_up_replies : Scripted :=
  [ Returns PyNone; Returns PyNone; Returns (PyObj 2); Returns PyNone ].

(** The first, resp. second, [getMin()] hands back nothing. *)
Definition no_first_minimum_replies : Scripted :=
  firstn 12 demo_replies ++ [ Returns PyNone ].

Definition no_second_minimum_replies : Scripted :=
  firstn 22 demo_replies ++ [ Returns PyNone ].

(** Both minima are below 1. *)
Definition small_minima_replies : Scripted :=
  firstn 12 demo_replies ++ [ Returns (PyFloat (3 # 10)%Q) ]
  ++ firstn 9 (skipn 13 demo_replies) ++ [ Returns (PyFloat (9 # 10)%Q) ]
  ++ skipn 23 demo_replies.

(** * Proofs *)

(** ** The embedding at work *)

Example percent_d_truncates :
  percent_d "Smallest inter-node distance: %d" (3 # 10) = "Smallest inter-node distance: 0"
  /\ percent_d "After downsampling: %d" (29 # 10) = "After downsampling: 2"
  /\ percent_d "After downsampling: %d" (-7 # 2) = "After downsampling: -3".
Proof. repeat split. Qed.

Example run_with_ui_running :
  outcome scripted_respond demo_replies = Val tt
  /\ skeleton (trace scripted_respond demo_replies) = straight_line false false.
Proof. split; reflexivity. Qed.

Example run_without_demo_data :
  outcome scripted_respond failed_load_replies = Ret
  /\ trace scripted_respond failed_load_replies
     = [ Call snt_getUI (Returns PyNone);
         Call (snt_initialize true) (Returns PyNone);
         Call snt_demoTree (Returns PyNone);
         Call (ui_showDialog "Somehow could not load bundled file." "Error")
           (Returns PyNone) ].
Proof. split; reflexivity. Qed.

Example run_with_failed_reload :
  outcome scripted_respond failed_reload_replies = Exc AttributeError
  /\ last (trace scripted_respond failed_reload_replies) (Printed "")
     = Call snt_demoTree (Returns PyNone).
Proof. split; reflexivity. Qed.

(** The modelled host, started without UI and with nothing loaded, on a demo
    tree that is one path turning at a right angle, with a downsampling that
    keeps the two ends of a path. *)
Example run_on_modelled_host :
  let host := snt_respond (Some right_angle) whole_minimum ends_only in
  outcome host (startup false [] []) = Val tt
  /\ filter is_print (trace host (startup false [] []))
     = [ Printed "Smallest inter-node distance: 8";
         Printed "After downsampling: 6" ]
  /\ viewer (final host (startup false [] []))
     = [ mkPath [ mkNode 0 0 0; mkNode 0 6 0 ] (Some "cyan");
         mkPath [ mkNode 0 0 0; mkNode 8 0 0; mkNode 0 6 0 ]
           (Some "yellow") ].
Proof. repeat split. Qed.

(** ** Inversion of the monad's operations *)

Section Inversion.

Variable Host : Type.
Variable respond : Host -> HostCall -> Reply * Host.

Lemma bind_inv {A B} (m : M Host A) (f : A -> M Host B) h r h' t :
  bind Host m f h = (r, h', t) ->
  (exists a h1 t1 t2,
      m h = (Val a, h1, t1) /\ f a h1 = (r, h', t2) /\ t = t1 ++ t2)
  \/ (m h = (Ret, h', t) /\ r = Ret)
  \/ (exists e, m h = (Exc e, h', t) /\ r = Exc e).
Proof.
  unfold bind. destruct (m h) as [[[a | | e] h1] t1].
  - destruct (f a h1) as [[r2 h2] t2] eqn:Ef. intros [= <- <- <-].
    left. exists a, h1, t1, t2. repeat split; auto.
  - intros [= <- <- <-]. right. left. split; reflexivity.
  - intros [= <- <- <-]. right. right. exists e. split; reflexivity.
Qed.

Lemma call_inv c h r h' t :
  call Host respond c h = (r, h', t) ->
  exists rep,
    respond h c = (rep, h') /\ t = [Call c rep]
    /\ r = match rep with Returns v => Val v | Throws => Exc HostError end.
Proof.
  unfold call. destruct (respond h c) as [[v | ] h1];
    intros [= <- <- <-]; eexists; eauto.
Qed.

Lemma invoke_inv recv m h r h' t :
  invoke Host respond recv m h = (r, h', t) ->
  (exists o, recv = PyObj o /\ call Host respond (m o) h = (r, h', t))
  \/ (r = Exc AttributeError /\ h' = h /\ t = []
      /\ forall o, recv <> PyObj o).
Proof.
  destruct recv; cbn; intros H;
    first [ left; eauto; fail
          | right; injection H as <- <- <-; repeat split; congruence ].
Qed.

Lemma format_d_inv template v h (r : Res string) h' t :
  format_d Host template v h = (r, h', t) ->
  h' = h /\ t = []
  /\ ((exists q, v = PyFloat q /\ r = Val (percent_d template q))
      \/ (r = Exc (format_fault v) /\ forall q, v <> PyFloat q)).
Proof.
  destruct v; cbn; intros [= <- <- <-]; repeat split;
    solve [ right; split; congruence | left; eauto ].
Qed.

End Inversion.

(** ** Symbolic execution of [run] against an arbitrary host *)

Ltac settle H :=
  first [ discriminate H
        | injection H; clear H; intros; subst
        | subst ].

Ltac inv_step :=
  match goal with
  | H : call _ _ _ _ = _ |- _ =>
      let E := fresh "E" in
      let Hr := fresh "Hr" in
      apply call_inv in H;
      destruct H as ([? | ] & E & ? & Hr);
      settle Hr
  | H : invoke _ _ _ _ _ = _ |- _ =>
      let Hr := fresh "Hr" in
      let Hn := fresh "Hn" in
      apply invoke_inv in H;
      destruct H as [(? & Hr & H) | (Hr & ? & ? & Hn)];
      settle Hr
  | H : format_d _ _ _ _ = _ |- _ =>
      let Hr := fresh "Hr" in
      let Hn := fresh "Hn" in
      apply format_d_inv in H;
      destruct H as (? & ? & [(? & ? & Hr) | (Hr & Hn)]);
      settle Hr
  | H : print _ _ _ = _ |- _ => unfold print in H; settle H
  | H : ret _ _ _ = _ |- _ => unfold ret in H; settle H
  | H : return_ _ _ = _ |- _ => unfold return_ in H; settle H
  | H : (if negb (truthy ?v) then _ else _) _ = _ |- _ =>
      let T := fresh "T" in
      destruct (truthy v) eqn:T; cbn [negb] in H
  | H : (let metric := _ in _) _ = _ |- _ => cbv zeta in H
  | H : bind _ _ _ _ = _ |- _ =>
      let H1 := fresh "Hm" in
      let H2 := fresh "Hk" in
      let Hr := fresh "Hr" in
      apply bind_inv in H;
      destruct H as [(? & ? & ? & ? & H1 & H2 & ?)
                    | [(H1 & Hr) | (? & H1 & Hr)]];
      [ cbn beta in H2; subst; move H1 at bottom | settle Hr | settle Hr ]
  end.

Ltac drop_pending :=
  repeat match goal with
         | H : bind _ _ _ _ = _ |- _ => clear H
         end.

(** Every path of [run]; [prune] is tried after each step to drop the paths
    that contradict what is known. *)
Ltac run_paths_with prune H :=
  unfold run in H;
  repeat (inv_step; try solve [ exfalso; drop_pending; prune ]).

Ltac run_paths H := run_paths_with fail H.

Ltac run_of h res h' tr H :=
  unfold outcome, trace in *;
  destruct (run _ h) as [[res h'] tr] eqn:H;
  cbn [fst snd] in *.

Ltac use_truthy :=
  match goal with
  | T : truthy ?v = _ |- context [truthy ?v] => rewrite T
  end.

Ltac tied_to_reply :=
  let v := fresh "v" in
  let Hv := fresh "Hv" in
  intros v Hv;
  first [ discriminate Hv | injection Hv as <-; use_truthy; reflexivity ].

Ltac absurd_value :=
  match goal with
  | Hn : forall o, PyObj ?x <> PyObj o |- _ => exact (Hn _ eq_refl)
  | Hn : forall q, PyFloat ?x <> PyFloat q |- _ => exact (Hn _ eq_refl)
  end.

Ltac expose_bad_values :=
  repeat match goal with
         | Hn : forall o, ?v <> PyObj o |- _ =>
             is_var v;
             destruct v; try (exfalso; exact (Hn _ eq_refl)); clear Hn
         | Hn : forall q, ?v <> PyFloat q |- _ =>
             is_var v;
             destruct v; try (exfalso; exact (Hn _ eq_refl)); clear Hn
         end.

Ltac pick_line ui demo :=
  match goal with
  | |- exists _ _ cut, _ = skeleton ?t ++ cut /\ _ =>
      exists ui, demo, (skipn (List.length t) (straight_line ui demo));
      split; [ reflexivity | ];
      split; [ cbn [replies_to hd_error is_getUI]; tied_to_reply | ];
      split; [ cbn [replies_to hd_error is_demoTree]; tied_to_reply | ];
      let Ho := fresh "Ho" in
      split; [ intros Ho; first [ discriminate Ho | split; reflexivity ] | ];
      split; [ intros Ho; first [ discriminate Ho | split; reflexivity ] | ];
      split;
      [ let e := fresh "e" in
        intros e Ho;
        first [ discriminate Ho | injection Ho as <-; reflexivity ]
      | let r := fresh "r" in
        intros Ho r;
        first [ discriminate Ho
              | clear Ho; cbn [nth_error]; intros _; eexists; reflexivity
              | clear Ho; cbn [nth_error]; intros Ho; discriminate Ho ] ]
  end.

(** ** The script against an arbitrary host *)

Section RunFacts.

Variable Host : Type.
Variable respond : Host -> HostCall -> Reply * Host.



(** C9.  The second [snt.demoTree()] is not checked.  When it hands back a
    false value the script raises at [tree.setColor("yellow")]: the failed
    load is the last call of the run, no dialog was shown, and the second
    colouring, the second load and the viewer calls never happen. *)
Theorem second_demo_load_is_unguarded h d v later :
  replies_to is_demoTree (trace respond h) = Returns d :: Returns v :: later ->
  truthy v = false ->
  later = []
  /\ faults_at_second_load v (trace respond h) (outcome respond h).
Proof.
  intros Hd Hv. unfold faults_at_second_load. run_of h res h' tr H.
  run_paths H; cbn in Hd; try discriminate Hd;
    injection Hd as <- <- <-; cbn [truthy] in Hv; try discriminate Hv;
    try congruence.
  all: cbn [app]; repeat split;
    match goal with
    | |- exists earlier, ?t = _ => exists (removelast t); reflexivity
    end.
Qed.


(** C7, as the code has it.  A run that reaches the end of the script reads
    the minimum of the inter-node distance twice, once before
    [tree.downSample(10)] and once after, and prints each right away; these
    are the only prints.  What is printed is the minimum cut to a whole
    number ([%d]), not the minimum itself. *)
Theorem minimum_is_printed_truncated h :
  outcome respond h = Val tt ->
  prints_truncated_minima (trace respond h).
Proof.
  intros Ho. unfold prints_truncated_minima. run_of h res h' tr H. subst res.
  run_paths H; cbn [app];
    first
      [ solve [ eexists _, _, _, _, _, _, _, [_; _; _; _; _; _; _; _; _],
                  [_; _], [_], [_; _], [_; _; _; _], _, _;
                repeat split; reflexivity ]
      | solve [ eexists _, _, _, _, _, _, _, [_; _; _; _; _; _; _; _; _; _],
                  [_; _], [_], [_; _], [_; _; _; _], _, _;
                repeat split; reflexivity ] ].
Qed.


(** C8, as the code has it.  Whatever the host answers, the statements
    executed are an initial part of one of the four straight lines through
    the two [if]s, and which line is fixed by the truth of the first
    [snt.getUI()] and of the first [snt.demoTree()].  The run ends through
    [return] only on a line with the demo tree missing, and reaches the end of
    the script only on a line with the demo tree present, in both cases with
    the whole line executed.  It stops short of that only by raising, where
    the host made the next statement impossible: the last call threw, the
    receiver of the next method call is not an object, or the minimum to
    print is not a number [%d] can format.  A missing UI on its own never
    ends the run: once [snt.initialize(True)] comes back, the demo tree is
    asked for. *)
Theorem two_guards_one_early_exit h :
  follows_a_straight_line (trace respond h) (outcome respond h).
Proof.
  unfold follows_a_straight_line. run_of h res h' tr H.
  pattern res, tr;
    match goal with |- ?P _ _ => set (Shown := P) end.
  run_paths H; try solve [ exfalso; absurd_value ];
    expose_bad_values; subst Shown; cbv beta; cbn [app];
    first [ solve [ pick_line false false ] | solve [ pick_line true false ]
          | solve [ pick_line false true ] | solve [ pick_line true true ] ].
Qed.

End RunFacts.

(** ** Concrete runs *)



Lemma second_demo_load_witness :
  replies_to is_demoTree (trace scripted_respond failed_reload_replies)
  = [Returns (PyObj 2); Returns PyNone]
  /\ truthy PyNone = false
  /\ faults_at_second_load PyNone
       (trace scripted_respond failed_reload_replies)
       (outcome scripted_respond failed_reload_replies).
Proof.
  split; [ reflexivity | ]. split; [ reflexivity | ].
  apply (second_demo_load_is_unguarded Scripted scripted_respond
           failed_reload_replies (PyObj 2) PyNone []); reflexivity.
Defined.


Lemma minimum_is_printed_truncated_witness :
  outcome scripted_respond demo_replies = Val tt
  /\ prints_truncated_minima (trace scripted_respond demo_replies).
Proof.
  split; [ reflexivity | ].
  apply (minimum_is_printed_truncated Scripted scripted_respond demo_replies).
  reflexivity.
Defined.


Lemma two_guards_witness :
  follows_a_straight_line (trace scripted_respond failed_load_replies)
    (outcome scripted_respond failed_load_replies).
Proof.
  apply (two_guards_one_early_exit Scripted scripted_respond
           failed_load_replies).
Defined.

(** C7, as stated, fails: the minimum read before downsampling is 1/2 and the
    line printed for it shows 0; after downsampling it is 7/2 and 3 is
    shown. *)
Lemma printed_minimum_is_not_the_minimum :
  outcome scripted_respond demo_replies = Val tt
  /\ replies_to (fun c => match c with getMin _ => true | _ => false end)
       (trace scripted_respond demo_replies)
     = [Returns (PyFloat (1 # 2)%Q); Returns (PyFloat (7 # 2)%Q)]
  /\ filter is_print (trace scripted_respond demo_replies)
     = [Printed "Smallest inter-node distance: 0";
        Printed "After downsampling: 3"]
  /\ ~ (inject_Z 0 == 1 # 2)%Q
  /\ ~ (inject_Z 3 == 7 # 2)%Q.
Proof.
  repeat split; try reflexivity; intros H; discriminate H.
Qed.

(** C8, as stated, fails: with the UI missing the first test fires, and the
    run still goes through every statement to the end of the script. *)
Lemma missing_ui_does_not_end_the_run :
  hd_error (replies_to is_getUI (trace scripted_respond no_ui_replies))
  = Some (Returns PyNone)
  /\ truthy PyNone = false
  /\ outcome scripted_respond no_ui_replies = Val tt
  /\ outcome scripted_respond no_ui_replies <> Ret
  /\ skeleton (trace scripted_respond no_ui_replies) = straight_line true false.
Proof.
  repeat split; try reflexivity. intros H; discriminate H.
Qed.

(** ** The script against the modelled host *)

Lemma existsb_eqb_seq i k n :
  existsb (Nat.eqb i) (seq k n) = (k <=? i) && (i <? k + n).
Proof.
  revert k. induction n as [| n IH]; intros k; cbn [seq existsb].
  - destruct (k <=? i) eqn:Hk; cbn; [ | reflexivity ].
    symmetry. apply Nat.ltb_ge. apply Nat.leb_le in Hk. lia.
  - rewrite IH.
    destruct (Nat.eqb_spec i k) as [-> | Hne]; cbn [orb].
    + symmetry. apply andb_true_iff. split.
      * apply Nat.leb_le. lia.
      * apply Nat.ltb_lt. lia.
    + destruct (Nat.leb_spec (S k) i), (Nat.leb_spec k i),
        (Nat.ltb_spec i (S k + n)), (Nat.ltb_spec i (k + S n));
        cbn; try reflexivity; lia.
Qed.

Lemma on_indices_outside {A} (f : A -> A) indices (l : list A) : forall i,
  (forall j, i <= j -> existsb (Nat.eqb j) indices = false) ->
  on_indices f indices i l = l.
Proof.
  induction l as [| x rest IH]; intros i Hout; cbn [on_indices].
  - reflexivity.
  - rewrite (Hout i (le_n i)). f_equal. apply IH.
    intros j Hj. apply Hout. lia.
Qed.

Lemma on_indices_window {A} (f : A -> A) (l r : list A) : forall k n i,
  k <= i -> k + n = i + List.length l ->
  on_indices f (seq k n) i (l ++ r) = map f l ++ r.
Proof.
  induction l as [| x rest IH]; intros k n i Hk Hn; cbn [app map on_indices].
  - apply on_indices_outside. intros j Hj. rewrite existsb_eqb_seq.
    cbn [List.length] in Hn. apply andb_false_iff. right.
    apply Nat.ltb_ge. lia.
  - cbn [List.length] in Hn. rewrite existsb_eqb_seq.
    replace (k <=? i) with true by (symmetry; apply Nat.leb_le; lia).
    replace (i <? k + n) with true by (symmetry; apply Nat.ltb_lt; lia).
    cbn [andb]. f_equal. apply IH; lia.
Qed.

Lemma on_indices_all {A} (f : A -> A) (l : list A) n :
  n = List.length l -> on_indices f (seq 0 n) 0 l = map f l.
Proof.
  intros ->. rewrite <- (app_nil_r l) at 2.
  rewrite on_indices_window by lia. apply app_nil_r.
Qed.

Ltac host_step :=
  match goal with
  | E : snt_respond _ _ _ ?s _ = (_, ?s') |- _ =>
      is_var s'; tryif is_var s then fail else
        (cbn in E; injection E; clear E; intros; subst)
  end.

(** C6.  On the modelled host, a run that reaches the end of the script
    leaves the 3D viewer showing exactly two tree renderings, told apart by
    colour: in cyan the tree that was downsampled in place (everything that
    was loaded when [snt.getTree(False)] was called, the first copy of the
    demo tree included), and in yellow a fresh copy of the demo tree, not
    downsampled.  This holds whatever [Tree.downSample] makes of a path. *)
Theorem viewer_shows_cyan_and_yellow
    first_path more_paths minimum downsample s :
  let demo := first_path :: more_paths in
  let host := snt_respond (Some demo) minimum downsample in
  fresh_session s ->
  outcome host s = Val tt ->
  exists cyan yellow,
    viewer (final host s) = flat_map display [cyan; yellow]
    /\ shown_color cyan = "cyan"
    /\ shown_paths cyan
       = map (downsample 10%Z) (map nodes (loaded s) ++ demo)
    /\ shown_color yellow = "yellow"
    /\ shown_paths yellow = demo
    /\ shown_paths cyan <> [] /\ shown_paths yellow <> [].
Proof.
  intros demo host Hfresh Ho. subst host.
  exists (mkRendering "cyan"
            (map (downsample 10%Z) (map nodes (loaded s) ++ demo))),
         (mkRendering "yellow" demo).
  cbn [shown_color shown_paths].
  split; [ | repeat split; try reflexivity; try discriminate ].
  - generalize dependent demo. intros demo Ho. clear first_path more_paths.
    destruct s as [ui paused paths selected objs shown said].
    unfold fresh_session in Hfresh. cbn [objects] in Hfresh. subst objs.
    cbn [loaded].
    unfold outcome, final in *.
    destruct (run _ _) as [[res s'] tr] eqn:H; cbn [fst snd] in *. subst res.
    run_paths H; destruct ui; repeat host_step; try discriminate.
    all: cbn.
    all: rewrite (on_indices_all (resampled (downsample 10%Z)))
      by reflexivity.
    all: rewrite (on_indices_all (painted "cyan"))
      by (rewrite length_map; reflexivity).
    all: unfold fresh_copy; rewrite app_nil_r, !map_app, !map_map.
    all: reflexivity.
  - intros Hnil. apply (f_equal (@List.length Path)) in Hnil.
    rewrite length_map, length_app in Hnil. cbn in Hnil. lia.
Qed.

Lemma viewer_witness :
  fresh_session (startup false [] [])
  /\ outcome (snt_respond (Some right_angle) whole_minimum ends_only)
       (startup false [] []) = Val tt
  /\ exists cyan yellow,
      viewer (final (snt_respond (Some right_angle) whole_minimum ends_only)
                (startup false [] []))
      = flat_map display [cyan; yellow]
      /\ shown_color cyan = "cyan"
      /\ shown_paths cyan = map (ends_only 10) right_angle
      /\ shown_color yellow = "yellow"
      /\ shown_paths yellow = right_angle
      /\ shown_paths cyan <> [] /\ shown_paths yellow <> [].
Proof.
  split; [ reflexivity | ]. split; [ reflexivity | ].
  apply (viewer_shows_cyan_and_yellow
           [ mkNode 0 0 0; mkNode 8 0 0; mkNode 0 6 0 ]
           [] whole_minimum ends_only (startup false [] [])); reflexivity.
Defined.

(** ** More on the script against an arbitrary host *)

Lemma Qtrunc_small (m : Q) : (-1 < m)%Q -> (m < 1)%Q -> Qtrunc m = 0%Z.
Proof.
  destruct m as [n d]. unfold Qlt, Qtrunc. cbn [Qnum Qden]. intros Hlo Hhi.
  destruct (Z.le_gt_cases 0 n) as [Hn | Hn].
  - apply Z.quot_small. lia.
  - rewrite <- (Z.opp_involutive n), Z.quot_opp_l by lia.
    rewrite Z.quot_small by lia. reflexivity.
Qed.

Ltac same_replies Hg :=
  cbn [replies_to is_getUI is_getMin is_demoTree] in Hg;
  first [ discriminate Hg | injection Hg; clear Hg; intros; subst ].

Ltac not_bad Hb := cbn [is_object is_number] in Hb; discriminate Hb.

Section MoreRunFacts.

Variable Host : Type.
Variable respond : Host -> HostCall -> Reply * Host.

(** What holds on every path through the script, established in one pass. *)
Lemma every_run h :
  (forall e, outcome respond h = Exc e ->
             fault_cause e (next_statement (trace respond h)) (trace respond h)
             = true)
  /\ forallb (fun e => negb (threw e)) (removelast (trace respond h)) = true
  /\ (existsb threw (trace respond h) = true ->
      outcome respond h = Exc HostError)
  /\ (exists later,
         replies_to is_demoTree (trace respond h)
         = map Returns (loaded_trees (trace respond h)) ++ later)
  /\ (count_calls is_showDialog (trace respond h) = 1 ->
      dialog_after_failed_load (trace respond h) (outcome respond h))
  /\ (forall r v later,
         replies_to is_getUI (trace respond h) = r :: Returns v :: later ->
         is_object v = false ->
         later = []
         /\ faults_before_load v (trace respond h) (outcome respond h))
  /\ (forall v later,
         replies_to is_getMin (trace respond h) = Returns v :: later ->
         is_number v = false ->
         later = []
         /\ faults_at_first_minimum (trace respond h) (outcome respond h))
  /\ (forall m v later,
         replies_to is_getMin (trace respond h)
         = Returns (PyFloat m) :: Returns v :: later ->
         is_number v = false ->
         later = []
         /\ faults_at_second_minimum m (trace respond h) (outcome respond h)).
Proof.
  unfold dialog_after_failed_load, faults_before_load,
    faults_at_first_minimum, faults_at_second_minimum.
  run_of h res h' tr H.
  pattern res, tr;
    match goal with |- ?P _ _ => set (Shown := P) end.
  run_paths H; try solve [ exfalso; absurd_value ];
    expose_bad_values; subst Shown; cbv beta; cbn [app].
  all: split;
    [ intros e He;
      first [ discriminate He | injection He as <-; reflexivity ]
    | ].
  all: split; [ reflexivity | ].
  all: split; [ intros Ht; first [ discriminate Ht | reflexivity ] | ].
  all: split;
    [ match goal with
      | |- exists later, ?d = map Returns ?l ++ later =>
          exists (skipn (List.length l) d); reflexivity
      end | ].
  all: split;
    [ intros Hc; first [ discriminate Hc
                       | eexists; split; [ reflexivity | ];
                         split; [ assumption | ];
                         repeat split; intros Hx; discriminate Hx ] | ].
  all: split;
    [ intros ? ? ? Hg Hb; same_replies Hg;
      first [ not_bad Hb | repeat split ] | ].
  all: split;
    [ intros ? ? Hg Hb; same_replies Hg;
      first [ not_bad Hb | repeat split ] | ].
  all: intros ? ? ? Hg Hb; same_replies Hg;
    first [ not_bad Hb | repeat split ].
Qed.

(** X1.  Where a run raised can be read off its trace alone.  The statement
    it was about to execute is the one at the trace's length on the line
    picked by whether an initialization and a dialog occur in it.  When the
    run ended with [HostError] its last event is a call that threw; with
    [AttributeError] that statement is a method call and the latest value
    handed back for its receiver is not an object; with [TypeError] that
    statement is a [print] and the last event is a [getMin()] that handed
    back [None] or an object, with [ValueError] one that handed back a float
    that is not a number, with [OverflowError] an infinite one. *)
Theorem faults_come_from_the_host h e :
  outcome respond h = Exc e ->
  fault_cause e (next_statement (trace respond h)) (trace respond h) = true.
Proof. apply (every_run h). Qed.

(** X2.  The script handles no exception: a host call that throws is the
    last event of its run, and a run in which a call threw ends with
    [HostError]. *)
Theorem a_throwing_call_ends_the_run h :
  forallb (fun e => negb (threw e)) (removelast (trace respond h)) = true
  /\ (existsb threw (trace respond h) = true ->
      outcome respond h = Exc HostError).
Proof.
  destruct (every_run h) as (_ & Hlast & Hthrew & _). split; assumption.
Qed.

(** X3.  Line 48 trusts [snt.initialize(True)]: when the second
    [snt.getUI()] still hands back no object, the script raises
    [AttributeError] right there, before anything is paused or loaded. *)
Theorem ui_still_missing_faults_before_load h r v later :
  replies_to is_getUI (trace respond h) = r :: Returns v :: later ->
  is_object v = false ->
  later = []
  /\ faults_before_load v (trace respond h) (outcome respond h).
Proof.
  destruct (every_run h) as (_ & _ & _ & _ & _ & Hui & _). apply Hui.
Qed.

(** X4.  A dialog is shown only for a failed first load: a run with a
    [ui.showDialog] call is one whose first [snt.demoTree()] handed back a
    false value, in which nothing was paused or loaded and the end of the
    script was not reached. *)
Theorem dialog_only_after_failed_load h :
  count_calls is_showDialog (trace respond h) = 1 ->
  dialog_after_failed_load (trace respond h) (outcome respond h).
Proof.
  destruct (every_run h) as (_ & _ & _ & _ & Hdialog & _). exact Hdialog.
Qed.

(** X5.  Nothing but the demo tree is ever loaded: in every run the trees
    passed to [snt.loadTree] are, in order, the values handed back by the
    first calls of [snt.demoTree()]. *)
Theorem loaded_trees_come_from_demoTree h :
  exists later,
    replies_to is_demoTree (trace respond h)
    = map Returns (loaded_trees (trace respond h)) ++ later.
Proof.
  destruct (every_run h) as (_ & _ & _ & Hloads & _). exact Hloads.
Qed.

(** X6.  When the first [getMin()] hands back something that is not a
    number, formatting it with [%d] raises [TypeError]: nothing is printed,
    and the tree is neither fetched nor downsampled. *)
Theorem first_minimum_must_be_a_number h v later :
  replies_to is_getMin (trace respond h) = Returns v :: later ->
  is_number v = false ->
  later = []
  /\ faults_at_first_minimum (trace respond h) (outcome respond h).
Proof.
  destruct (every_run h) as (_ & _ & _ & _ & _ & _ & Hfirst & _).
  apply Hfirst.
Qed.

(** X7.  When the second [getMin()] hands back something that is not a
    number the script raises [TypeError] after the fact: the tree is already
    downsampled and relabelled, only the first minimum was printed, and
    nothing is coloured, reloaded or shown. *)
Theorem second_minimum_must_be_a_number h m v later :
  replies_to is_getMin (trace respond h)
  = Returns (PyFloat m) :: Returns v :: later ->
  is_number v = false ->
  later = []
  /\ faults_at_second_minimum m (trace respond h) (outcome respond h).
Proof.
  destruct (every_run h) as (_ & _ & _ & _ & _ & _ & _ & Hsecond).
  apply Hsecond.
Qed.

(** X8.  A run that reaches the end of the script finishes with the
    rendering step, in this order: the downsampled tree is coloured cyan, a
    second demo tree is fetched, coloured yellow before it is loaded, the
    reconstruction viewer is shown, and the plugin updates all viewers.
    These are the only colourings, and one tree was loaded before. *)
Theorem run_ends_with_rendering h :
  outcome respond h = Val tt ->
  ends_with_rendering (trace respond h).
Proof.
  intros Ho. unfold ends_with_rendering. run_of h res h' tr H. subst res.
  run_paths H; cbn [app];
    first
      [ solve [ eexists
                  [_; _; _; _; _; _; _; _; _; _; _; _; _; _; _; _; _; _; _; _; _; _; _;
                   _; _],
                  _, _, _, _, _, _, _, _, _;
                repeat split; reflexivity ]
      | solve [ eexists
                  [_; _; _; _; _; _; _; _; _; _; _; _; _; _; _; _; _; _; _; _; _; _; _;
                   _; _; _],
                  _, _, _, _, _, _, _, _, _;
                repeat split; reflexivity ] ].
Qed.

(** X9.  A run that reaches the end of the script fetches the tree once with
    [snt.getTree(False)]; the object handed back is the one that is
    downsampled with 10, relabelled, passed to [TreeStatistics] and later
    coloured cyan. *)
Theorem fetched_tree_is_the_one_changed h :
  outcome respond h = Val tt ->
  changes_the_fetched_tree (trace respond h).
Proof.
  intros Ho. unfold changes_the_fetched_tree. run_of h res h' tr H. subst res.
  run_paths H; cbn [app];
    first
      [ solve [ eexists _, [_; _; _; _; _; _; _; _; _; _; _; _; _; _],
                  [_; _; _; _; _; _; _], _, _, _, _, _;
                repeat split; reflexivity ]
      | solve [ eexists _, [_; _; _; _; _; _; _; _; _; _; _; _; _; _; _],
                  [_; _; _; _; _; _; _], _, _, _, _, _;
                repeat split; reflexivity ] ].
Qed.

(** X10.  A run that reaches the end of the script reads two minima and
    prints two lines; a minimum strictly between -1 and 1 is printed as 0,
    so the two lines read the same whenever both minima are below 1. *)
Theorem small_minima_are_printed_as_zero h :
  outcome respond h = Val tt ->
  prints_small_minima_as_zero (trace respond h).
Proof.
  intros Ho. unfold prints_small_minima_as_zero.
  run_of h res h' tr H. subst res.
  run_paths H; cbn [app];
    eexists _, _; (split; [ reflexivity | ]); (split; [ reflexivity | ]);
    split; intros Hlo Hhi; cbn [printed_lines nth_error]; unfold percent_d;
    rewrite (Qtrunc_small _ Hlo Hhi); reflexivity.
Qed.

End MoreRunFacts.

(** ** More concrete runs *)

Lemma faults_come_from_the_host_witness :
  outcome scripted_respond failed_reload_replies = Exc AttributeError
  /\ fault_cause AttributeError
       (next_statement (trace scripted_respond failed_reload_replies))
       (trace scripted_respond failed_reload_replies)
     = true.
Proof.
  split; [ reflexivity | ].
  apply (faults_come_from_the_host Scripted scripted_respond
           failed_reload_replies AttributeError).
  reflexivity.
Defined.

Lemma a_throwing_call_witness :
  existsb threw (trace scripted_respond (firstn 7 demo_replies)) = true
  /\ outcome scripted_respond (firstn 7 demo_replies) = Exc HostError.
Proof.
  split; [ reflexivity | ].
  apply (a_throwing_call_ends_the_run Scripted scripted_respond
           (firstn 7 demo_replies)).
  reflexivity.
Defined.

Lemma ui_still_missing_witness :
  replies_to is_getUI (trace scripted_respond ui_never_comes_up_replies)
  = [Returns PyNone; Returns PyNone]
  /\ is_object PyNone = false
  /\ faults_before_load PyNone
       (trace scripted_respond ui_never_comes_up_replies)
       (outcome scripted_respond ui_never_comes_up_replies).
Proof.
  split; [ reflexivity | ]. split; [ reflexivity | ].
  apply (ui_still_missing_faults_before_load Scripted scripted_respond
           ui_never_comes_up_replies (Returns PyNone) PyNone []);
    reflexivity.
Defined.

Lemma dialog_witness :
  count_calls is_showDialog (trace scripted_respond failed_load_replies) = 1
  /\ dialog_after_failed_load (trace scripted_respond failed_load_replies)
       (outcome scripted_respond failed_load_replies).
Proof.
  split; [ reflexivity | ].
  apply (dialog_only_after_failed_load Scripted scripted_respond
           failed_load_replies).
  reflexivity.
Defined.

Lemma first_minimum_witness :
  replies_to is_getMin (trace scripted_respond no_first_minimum_replies)
  = [Returns PyNone]
  /\ is_number PyNone = false
  /\ faults_at_first_minimum
       (trace scripted_respond no_first_minimum_replies)
       (outcome scripted_respond no_first_minimum_replies).
Proof.
  split; [ reflexivity | ]. split; [ reflexivity | ].
  apply (first_minimum_must_be_a_number Scripted scripted_respond
           no_first_minimum_replies PyNone []); reflexivity.
Defined.

Lemma second_minimum_witness :
  replies_to is_getMin (trace scripted_respond no_second_minimum_replies)
  = [Returns (PyFloat (1 # 2)%Q); Returns PyNone]
  /\ is_number PyNone = false
  /\ faults_at_second_minimum (1 # 2)%Q
       (trace scripted_respond no_second_minimum_replies)
       (outcome scripted_respond no_second_minimum_replies).
Proof.
  split; [ reflexivity | ]. split; [ reflexivity | ].
  apply (second_minimum_must_be_a_number Scripted scripted_respond
           no_second_minimum_replies (1 # 2)%Q PyNone []); reflexivity.
Defined.

Lemma run_ends_with_rendering_witness :
  outcome scripted_respond no_ui_replies = Val tt
  /\ ends_with_rendering (trace scripted_respond no_ui_replies).
Proof.
  split; [ reflexivity | ].
  apply (run_ends_with_rendering Scripted scripted_respond no_ui_replies).
  reflexivity.
Defined.

Lemma fetched_tree_witness :
  outcome scripted_respond demo_replies = Val tt
  /\ changes_the_fetched_tree (trace scripted_respond demo_replies).
Proof.
  split; [ reflexivity | ].
  apply (fetched_tree_is_the_one_changed Scripted scripted_respond
           demo_replies).
  reflexivity.
Defined.

Lemma small_minima_witness :
  outcome scripted_respond small_minima_replies = Val tt
  /\ prints_small_minima_as_zero (trace scripted_respond small_minima_replies).
Proof.
  split; [ reflexivity | ].
  apply (small_minima_are_printed_as_zero Scripted scripted_respond
           small_minima_replies).
  reflexivity.
Defined.

Example nan_minimum_is_refused :
  outcome scripted_respond nan_minimum_replies = Exc ValueError
  /\ next_statement (trace scripted_respond nan_minimum_replies) = Some None
  /\ last_event (trace scripted_respond nan_minimum_replies)
     = Some (Call (getMin 5) (Returns PyNaN)).
Proof. repeat split. Qed.

Example small_minima_print_the_same :
  printed_lines (trace scripted_respond small_minima_replies)
  = [ "Smallest inter-node distance: 0"; "After downsampling: 0" ].
Proof. reflexivity. Qed.
